(** * AndroidFingerprintAuth: the typed client surface of the fingerprint plugin

    Shallow embedding of [src/plugins/android-fingerprint-auth.ts].

    The file is declarative: two interfaces, one decorated class with four
    static bridge methods and one static table of error-code strings.  The
    embedding therefore has two layers:

    - [Decl]: the declarations as written (field names, [?] markers, types,
      modifiers, decorators, the object literal initialising [ERRORS]);
    - [Runtime]: what evaluating the module and calling its methods does to
      the module's own store, over an abstract native bridge. *)

From stdpp Require Import gmap strings list fin_maps.

Local Open Scope string_scope.

(* ===================================================================== *)
(** ** Declarations *)
(* ===================================================================== *)

Module Decl.

(** Type expressions occurring in the file.  [TLit] is an inline object type
    [{ a: T; b?: U }]; [TRef] is a reference to a named interface. *)
Inductive ts_type : Type :=
| TString
| TBoolean
| TNumber
| TRef (name : string)
| TLit (members : list prop_sig)
| TPromise (result : ts_type)
with prop_sig : Type :=
| PropSig (name : string) (optional : bool) (ty : ts_type).

Definition sig_name (p : prop_sig) : string :=
  match p with PropSig n _ _ => n end.
Definition sig_optional (p : prop_sig) : bool :=
  match p with PropSig _ o _ => o end.
Definition sig_type (p : prop_sig) : ts_type :=
  match p with PropSig _ _ t => t end.

(** [name: T] and [name?: T]. *)
Definition req (n : string) (t : ts_type) : prop_sig := PropSig n false t.
Definition opt (n : string) (t : ts_type) : prop_sig := PropSig n true t.

Record interface_decl : Type := Interface {
  i_name : string;
  i_members : list prop_sig
}.

(** [export interface AndroidFingerprintAuthOptions], lines 3-64. *)
Definition AndroidFingerprintAuthOptions : interface_decl :=
  Interface "AndroidFingerprintAuthOptions"
    [ req "clientId" TString;
      opt "username" TString;
      opt "password" TString;
      opt "token" TString;
      opt "disableBackup" TBoolean;
      opt "locale" TString;
      opt "maxAttempts" TNumber;
      opt "userAuthRequired" TBoolean;
      opt "dialogTitle" TString;
      opt "dialogMessage" TString;
      opt "dialogHint" TString ].

(** [export interface AndroidFingerprintAuthErrors], lines 69-88. *)
Definition AndroidFingerprintAuthErrors : interface_decl :=
  Interface "AndroidFingerprintAuthErrors"
    [ req "BAD_PADDING_EXCEPTION" TString;
      req "CERTIFICATE_EXCEPTION" TString;
      req "FINGERPRINT_CANCELLED" TString;
      req "FINGERPRINT_DATA_NOT_DELETED" TString;
      req "FINGERPRINT_ERROR" TString;
      req "FINGERPRINT_NOT_AVAILABLE" TString;
      req "FINGERPRINT_PERMISSION_DENIED" TString;
      req "FINGERPRINT_PERMISSION_DENIED_SHOW_REQUEST" TString;
      req "ILLEGAL_BLOCK_SIZE_EXCEPTION" TString;
      req "INIT_CIPHER_FAILED" TString;
      req "INVALID_ALGORITHM_PARAMETER_EXCEPTION" TString;
      req "IO_EXCEPTION" TString;
      req "JSON_EXCEPTION" TString;
      req "MINIMUM_SDK" TString;
      req "MISSING_ACTION_PARAMETERS" TString;
      req "MISSING_PARAMETERS" TString;
      req "NO_SUCH_ALGORITHM_EXCEPTION" TString;
      req "SECURITY_EXCEPTION" TString ].

(** The interfaces the module declares, in source order. *)
Definition interfaces : list interface_decl :=
  [ AndroidFingerprintAuthOptions; AndroidFingerprintAuthErrors ].

(** Class members.  TypeScript members carry an optional accessibility
    modifier; a member without one is public. *)
Inductive accessibility : Type := Public | Protected | Private.

#[global] Instance accessibility_eq_dec : EqDecision accessibility.
Proof. solve_decision. Defined.

Record method_decl : Type := Method {
  m_name : string;
  m_static : bool;
  m_access : option accessibility;
  m_decorators : list string;
  m_params : list (string * ts_type);
  m_return : ts_type
}.

Record property_decl : Type := Property {
  p_name : string;
  p_static : bool;
  p_access : option accessibility;
  p_readonly : bool;
  p_type : ts_type;
  p_init : list (string * string)   (* object literal: key, string literal *)
}.

Inductive class_member : Type :=
| MMethod (m : method_decl)
| MProperty (p : property_decl).

(** The argument of the [@Plugin] class decorator, lines 128-133. *)
Record plugin_meta : Type := Plugin {
  pluginName : string;
  plugin : string;
  pluginRef : string;
  repo : string
}.

Record class_decl : Type := Class {
  c_name : string;
  c_plugin : plugin_meta;
  c_members : list class_member
}.

(** [static encrypt(options: AndroidFingerprintAuthOptions): Promise<{...}>],
    lines 141-155. *)
Definition encrypt : method_decl :=
  Method "encrypt" true None ["Cordova"]
    [ ("options", TRef "AndroidFingerprintAuthOptions") ]
    (TPromise (TLit [ req "withFingerprint" TBoolean;
                      req "withBackup" TBoolean;
                      req "token" TString ])).

(** [static decrypt(options: AndroidFingerprintAuthOptions): Promise<{...}>],
    lines 162-177. *)
Definition decrypt : method_decl :=
  Method "decrypt" true None ["Cordova"]
    [ ("options", TRef "AndroidFingerprintAuthOptions") ]
    (TPromise (TLit [ req "withFingerprint" TBoolean;
                      req "withBackup" TBoolean;
                      req "password" TString ])).

(** [static isAvailable(): Promise<{isAvailable: boolean}>], lines 183-184. *)
Definition isAvailable : method_decl :=
  Method "isAvailable" true None ["Cordova"]
    [ ]
    (TPromise (TLit [ req "isAvailable" TBoolean ])).

(** [static delete(options: {clientId: string; username: string; }):
    Promise<{deleted: boolean}>], lines 190-191. *)
Definition delete : method_decl :=
  Method "delete" true None ["Cordova"]
    [ ("options", TLit [ req "clientId" TString; req "username" TString ]) ]
    (TPromise (TLit [ req "deleted" TBoolean ])).

(** [static ERRORS:IAndroidFingerprintAuthErrors = { ... }], lines 193-212.
    The annotation is kept as written. *)
Definition ERRORS : property_decl :=
  Property "ERRORS" true None false (TRef "IAndroidFingerprintAuthErrors")
    [ ("BAD_PADDING_EXCEPTION", "BAD_PADDING_EXCEPTION");
      ("CERTIFICATE_EXCEPTION", "CERTIFICATE_EXCEPTION");
      ("FINGERPRINT_CANCELLED", "FINGERPRINT_CANCELLED");
      ("FINGERPRINT_DATA_NOT_DELETED", "FINGERPRINT_DATA_NOT_DELETED");
      ("FINGERPRINT_ERROR", "FINGERPRINT_ERROR");
      ("FINGERPRINT_NOT_AVAILABLE", "FINGERPRINT_NOT_AVAILABLE");
      ("FINGERPRINT_PERMISSION_DENIED", "FINGERPRINT_PERMISSION_DENIED");
      ("FINGERPRINT_PERMISSION_DENIED_SHOW_REQUEST",
         "FINGERPRINT_PERMISSION_DENIED_SHOW_REQUEST");
      ("ILLEGAL_BLOCK_SIZE_EXCEPTION", "ILLEGAL_BLOCK_SIZE_EXCEPTION");
      ("INIT_CIPHER_FAILED", "INIT_CIPHER_FAILED");
      ("INVALID_ALGORITHM_PARAMETER_EXCEPTION",
         "INVALID_ALGORITHM_PARAMETER_EXCEPTION");
      ("IO_EXCEPTION", "IO_EXCEPTION");
      ("JSON_EXCEPTION", "JSON_EXCEPTION");
      ("MINIMUM_SDK", "MINIMUM_SDK");
      ("MISSING_ACTION_PARAMETERS", "MISSING_ACTION_PARAMETERS");
      ("MISSING_PARAMETERS", "MISSING_PARAMETERS");
      ("NO_SUCH_ALGORITHM_EXCEPTION", "NO_SUCH_ALGORITHM_EXCEPTION");
      ("SECURITY_EXCEPTION", "SECURITY_EXCEPTION") ].

(** [export class AndroidFingerprintAuth], lines 128-213. *)
Definition AndroidFingerprintAuth : class_decl :=
  Class "AndroidFingerprintAuth"
    (Plugin "AndroidFingerprintAuth"
            "cordova-plugin-android-fingerprint-auth"
            "FingerprintAuth"
            "https://github.com/mjwheatley/cordova-plugin-android-fingerprint-auth")
    [ MMethod encrypt; MMethod decrypt; MMethod isAvailable; MMethod delete;
      MProperty ERRORS ].

(** *** Queries over the declarations *)

Definition required_names (ps : list prop_sig) : list string :=
  sig_name <$> filter (λ p, sig_optional p = false) ps.

Definition optional_names (ps : list prop_sig) : list string :=
  sig_name <$> filter (λ p, sig_optional p = true) ps.

Definition find_sig (n : string) (ps : list prop_sig) : option prop_sig :=
  list_find (λ p, sig_name p = n) ps ≫= λ ip, Some ip.2.

Definition find_interface (n : string) (env : list interface_decl)
  : option interface_decl :=
  list_find (λ i, i_name i = n) env ≫= λ ii, Some ii.2.

(** The members denoted by a type expression: an object literal denotes its
    own members, a reference those of the interface it names (when the
    module declares it); other types have none. *)
Definition members_of (env : list interface_decl) (t : ts_type)
  : option (list prop_sig) :=
  match t with
  | TLit ps => Some ps
  | TRef n => i_members <$> find_interface n env
  | _ => None
  end.

Definition methods (c : class_decl) : list method_decl :=
  omap (λ cm, match cm with MMethod m => Some m | MProperty _ => None end)
       (c_members c).

Definition properties (c : class_decl) : list property_decl :=
  omap (λ cm, match cm with MProperty p => Some p | MMethod _ => None end)
       (c_members c).

(** The bridge operations: the methods carrying [@Cordova()]. *)
Definition operations (c : class_decl) : list method_decl :=
  filter (λ m, "Cordova" ∈ m_decorators m) (methods c).

Definition find_method (n : string) (c : class_decl) : option method_decl :=
  list_find (λ m, m_name m = n) (methods c) ≫= λ im, Some im.2.

Definition find_property (n : string) (c : class_decl) : option property_decl :=
  list_find (λ p, p_name p = n) (properties c) ≫= λ ip, Some ip.2.

(** A member without a modifier is public. *)
Definition effective_access (a : option accessibility) : accessibility :=
  default Public a.

(** Members of the type of the [i]-th parameter of method [n]. *)
Definition param_members (env : list interface_decl) (c : class_decl)
    (n : string) (i : nat) : option (list prop_sig) :=
  m ← find_method n c;
  p ← m_params m !! i;
  members_of env p.2.

(** Members of the value a method's promise resolves with. *)
Definition result_members (env : list interface_decl) (c : class_decl)
    (n : string) : option (list prop_sig) :=
  m ← find_method n c;
  match m_return m with
  | TPromise t => members_of env t
  | _ => None
  end.

Definition returns_promise (m : method_decl) : bool :=
  match m_return m with TPromise _ => true | _ => false end.

End Decl.

(* ===================================================================== *)
(** ** Runtime *)
(* ===================================================================== *)

Module Runtime.

(** Values crossing the bridge.  [number] is only used for [maxAttempts],
    an attempt count, and is carried as an integer. *)
#[warnings="-register-all"] Inductive js_value : Type :=
| JUndefined
| JBool (b : bool)
| JNum (n : Z)
| JStr (s : string)
| JObj (fields : list (string * js_value)).

(** Evaluation of an object literal whose property values are string
    literals: properties are defined left to right on a fresh object, a
    later occurrence of a key overwriting an earlier one. *)
Definition eval_object_literal (lit : list (string * string))
  : gmap string string :=
  foldl (λ o kv, <[kv.1 := kv.2]> o) ∅ lit.

(** The value of the static initialiser of [AndroidFingerprintAuth.ERRORS]. *)
Definition ERRORS : gmap string string :=
  eval_object_literal (Decl.p_init Decl.ERRORS).

(** [Object.keys(o).length]. *)
Definition entries (o : gmap string string) : nat := size o.

(** The strings stored in the table. *)
Definition error_codes (o : gmap string string) : list string :=
  (map_to_list o).*2.

(** [e === ERRORS.k] for some key [k]: exact string identity. *)
Definition is_known_error (o : gmap string string) (e : string) : bool :=
  bool_decide (e ∈ error_codes o).

(** An argument of type [AndroidFingerprintAuthOptions]: the required field
    is always there, an optional one may be absent. *)
Record options : Type := Options {
  clientId : string;
  username : option string;
  password : option string;
  token : option string;
  disableBackup : option bool;
  locale : option string;
  maxAttempts : option Z;
  userAuthRequired : option bool;
  dialogTitle : option string;
  dialogMessage : option string;
  dialogHint : option string
}.

(** The argument of [delete]: [{clientId: string; username: string}]. *)
Record delete_options : Type := DeleteOptions {
  d_clientId : string;
  d_username : string
}.

Definition field {A} (k : string) (inj : A → js_value) (v : option A)
  : list (string * js_value) :=
  match v with Some a => [(k, inj a)] | None => [] end.

Definition options_to_js (o : options) : js_value :=
  JObj ([("clientId", JStr (clientId o))]
        ++ field "username" JStr (username o)
        ++ field "password" JStr (password o)
        ++ field "token" JStr (token o)
        ++ field "disableBackup" JBool (disableBackup o)
        ++ field "locale" JStr (locale o)
        ++ field "maxAttempts" JNum (maxAttempts o)
        ++ field "userAuthRequired" JBool (userAuthRequired o)
        ++ field "dialogTitle" JStr (dialogTitle o)
        ++ field "dialogMessage" JStr (dialogMessage o)
        ++ field "dialogHint" JStr (dialogHint o)).

Definition delete_options_to_js (o : delete_options) : js_value :=
  JObj [("clientId", JStr (d_clientId o)); ("username", JStr (d_username o))].

(** [v.k] on a value: the field of an object, nothing otherwise. *)
Definition get_field (k : string) (v : js_value) : option js_value :=
  match v with
  | JObj fs => list_find (λ kv, kv.1 = k) fs ≫= λ ikv, Some ikv.2.2
  | _ => None
  end.

(** How a promise settles. *)
Inductive settlement : Type :=
| Resolve (v : js_value)
| Reject (e : string).

Section Bridge.

(** The native side: its state and its entry point
    [exec service action args], both outside the module. *)
Context {Native : Type}.
Variable exec : string → string → list js_value → Native → settlement * Native.

(** The module's own store (the static property) next to the native
    state the bridge owns. *)
Record module_state : Type := ModuleState {
  st_ERRORS : gmap string string;
  st_native : Native
}.

(** A computation over the module state. *)
Definition M (A : Type) : Type := module_state → A * module_state.

Definition ret {A} (a : A) : M A := λ st, (a, st).
Definition bind {A B} (c : M A) (k : A → M B) : M B :=
  λ st, let '(a, st') := c st in k a st'.
Definition native_call (service action : string) (args : list js_value)
  : M settlement :=
  λ st, let '(r, n') := exec service action args (st_native st) in
        (r, ModuleState (st_ERRORS st) n').

(** Module load: the class body is evaluated once, which runs the static
    initialiser. *)
Definition load (n : Native) : module_state :=
  ModuleState (eval_object_literal (Decl.p_init Decl.ERRORS)) n.

(** Modelled from the spec: the [@Cordova()] method decorator imported
    from [./plugin], which is not part of the sources.  The decorated
    method hands its arguments to the native bridge under the class's
    [pluginRef] and the method's own name, and settles with whatever the
    bridge reports, forwarded verbatim; it has no local side effect. *)
Definition Cordova (c : Decl.class_decl) (m : Decl.method_decl)
    (args : list js_value) : M settlement :=
  bind (native_call (Decl.pluginRef (Decl.c_plugin c)) (Decl.m_name m) args)
       (λ r, ret r).

Definition encrypt (o : options) : M settlement :=
  Cordova Decl.AndroidFingerprintAuth Decl.encrypt [options_to_js o].

Definition decrypt (o : options) : M settlement :=
  Cordova Decl.AndroidFingerprintAuth Decl.decrypt [options_to_js o].

Definition isAvailable : M settlement :=
  Cordova Decl.AndroidFingerprintAuth Decl.isAvailable [].

Definition delete (o : delete_options) : M settlement :=
  Cordova Decl.AndroidFingerprintAuth Decl.delete [delete_options_to_js o].

(** A call a client can make on the class. *)
Inductive call : Type :=
| CallEncrypt (o : options)
| CallDecrypt (o : options)
| CallIsAvailable
| CallDelete (o : delete_options).

Definition perform (c : call) : M settlement :=
  match c with
  | CallEncrypt o => encrypt o
  | CallDecrypt o => decrypt o
  | CallIsAvailable => isAvailable
  | CallDelete o => delete o
  end.

(** A sequence of calls, each settled before the next is made. *)
Fixpoint run (cs : list call) : M (list settlement) :=
  match cs with
  | [] => ret []
  | c :: cs' => bind (perform c) (λ r, bind (run cs') (λ rs, ret (r :: rs)))
  end.

(** The client sequence of the round-trip property: [encrypt] the
    credentials, then [decrypt] with the same [clientId] and the [token]
    of the first result; the [password] of the second result when both
    calls resolve. *)
Definition encrypt_then_decrypt (cid user pwd : string)
  : M (option string) :=
  bind (encrypt (Options cid (Some user) (Some pwd) None
                   None None None None None None None))
    (λ r1,
       match r1 with
       | Resolve v1 =>
           match get_field "token" v1 with
           | Some (JStr t) =>
               bind (decrypt (Options cid None None (Some t)
                                None None None None None None None))
                 (λ r2,
                    ret match r2 with
                        | Resolve v2 =>
                            match get_field "password" v2 with
                            | Some (JStr p) => Some p
                            | _ => None
                            end
                        | Reject _ => None
                        end)
           | _ => ret None
           end
       | Reject _ => ret None
       end).

End Bridge.

Arguments module_state : clear implicits.
Arguments M : clear implicits.

End Runtime.

(* ===================================================================== *)
(** ** The specified catalog, derived names, bridge doubles *)
(* ===================================================================== *)

(** The catalog as the specification's External Interfaces section lists
    it. *)
Definition catalog_as_specified : list string :=
  [ "BAD_PADDING_EXCEPTION"; "CERTIFICATE_EXCEPTION"; "FINGERPRINT_CANCELLED";
    "FINGERPRINT_DATA_NOT_DELETED"; "FINGERPRINT_ERROR";
    "FINGERPRINT_NOT_AVAILABLE"; "FINGERPRINT_PERMISSION_DENIED";
    "FINGERPRINT_PERMISSION_DENIED_SHOW_REQUEST";
    "ILLEGAL_BLOCK_SIZE_EXCEPTION"; "INIT_CIPHER_FAILED";
    "INVALID_ALGORITHM_PARAMETER_EXCEPTION"; "IO_EXCEPTION"; "JSON_EXCEPTION";
    "MINIMUM_SDK"; "MISSING_ACTION_PARAMETERS"; "MISSING_PARAMETERS";
    "NO_SUCH_ALGORITHM_EXCEPTION"; "SECURITY_EXCEPTION" ].

(** Names of the fields the four operations resolve with, over all of
    them. *)
Definition result_field_names (env : list Decl.interface_decl)
    (c : Decl.class_decl) : list string :=
  m ← Decl.operations c;
  Decl.sig_name <$> default [] (Decl.result_members env c (Decl.m_name m)).

(** A bridge double that counts the calls it receives, resolves
    [isAvailable] and rejects everything else as cancelled. *)
Definition counting_double (service action : string)
    (args : list Runtime.js_value) (n : nat) : Runtime.settlement * nat :=
  if decide (service = "FingerprintAuth" ∧ action = "isAvailable")
  then (Runtime.Resolve (Runtime.JObj [("isAvailable", Runtime.JBool true)]),
        S n)
  else (Runtime.Reject "FINGERPRINT_CANCELLED", S n).

Definition demo_options : Runtime.options :=
  Runtime.Options "myAppName" (Some "myUsername") (Some "myPassword")
    None None None None None None None None.

Definition demo_calls : list Runtime.call :=
  [ Runtime.CallIsAvailable; Runtime.CallEncrypt demo_options;
    Runtime.CallDelete (Runtime.DeleteOptions "app" "u") ].

(** A bridge double whose cipher is the identity: [encrypt] resolves with
    the password as token, [decrypt] with the token as password. *)
Definition echo_double (service action : string)
    (args : list Runtime.js_value) (n : nat) : Runtime.settlement * nat :=
  match args with
  | [o] =>
      if decide (action = "encrypt") then
        match Runtime.get_field "password" o with
        | Some p => (Runtime.Resolve
                       (Runtime.JObj [ ("withFingerprint", Runtime.JBool true);
                                       ("withBackup", Runtime.JBool false);
                                       ("token", p) ]), S n)
        | None => (Runtime.Reject "MISSING_PARAMETERS", S n)
        end
      else if decide (action = "decrypt") then
        match Runtime.get_field "token" o with
        | Some t => (Runtime.Resolve
                       (Runtime.JObj [ ("withFingerprint", Runtime.JBool true);
                                       ("withBackup", Runtime.JBool false);
                                       ("password", t) ]), S n)
        | None => (Runtime.Reject "MISSING_PARAMETERS", S n)
        end
      else (Runtime.Reject "MISSING_ACTION_PARAMETERS", S n)
  | _ => (Runtime.Reject "MISSING_ACTION_PARAMETERS", S n)
  end.

(* ===================================================================== *)
(** ** Type references and typing of bridge values *)
(* ===================================================================== *)




(** The object types written in a type expression, as member lists. *)
Fixpoint object_types (t : Decl.ts_type) : list (list Decl.prop_sig) :=
  match t with
  | Decl.TLit ps =>
      ps :: (fix go (ps : list Decl.prop_sig) : list (list Decl.prop_sig) :=
               match ps with
               | [] => []
               | Decl.PropSig _ _ ty :: ps' => (object_types ty ++ go ps')%list
               end) ps
  | Decl.TPromise r => object_types r
  | _ => []
  end.

(** Every object type of the module: the interfaces, and the literals in
    the method signatures. *)
Definition module_object_types (env : list Decl.interface_decl)
    (c : Decl.class_decl) : list (list Decl.prop_sig) :=
  ((Decl.i_members <$> env)
   ++ (m ← Decl.methods c;
       (p ← Decl.m_params m; object_types p.2)
       ++ object_types (Decl.m_return m)))%list.

(** A value has a (reference-free) type: primitives by their tag; an object
    type when every required member is there with a value of its type, and
    every optional member is absent, [undefined], or of its type.  Fields
    the type does not mention are allowed. *)
Fixpoint has_type (t : Decl.ts_type) (v : Runtime.js_value) : bool :=
  match t, v with
  | Decl.TString, Runtime.JStr _ => true
  | Decl.TBoolean, Runtime.JBool _ => true
  | Decl.TNumber, Runtime.JNum _ => true
  | Decl.TLit ps, Runtime.JObj _ =>
      (fix go (ps : list Decl.prop_sig) : bool :=
         match ps with
         | [] => true
         | Decl.PropSig n o ty :: ps' =>
             match Runtime.get_field n v with
             | None | Some Runtime.JUndefined => o
             | Some x => has_type ty x
             end && go ps'
         end) ps
  | _, _ => false
  end.

(** Typing against a type as written in a signature: a reference stands for
    the members of the interface it names. *)
Definition has_declared_type (env : list Decl.interface_decl)
    (t : Decl.ts_type) (v : Runtime.js_value) : bool :=
  match t with
  | Decl.TRef n =>
      match Decl.find_interface n env with
      | Some i => has_type (Decl.TLit (Decl.i_members i)) v
      | None => false
      end
  | _ => has_type t v
  end.

(** The type written for the [i]-th parameter of method [n]. *)
Definition param_type (c : Decl.class_decl) (n : string) (i : nat)
  : option Decl.ts_type :=
  m ← Decl.find_method n c; p ← Decl.m_params m !! i; Some p.2.

(** The names of the fields of an object value. *)
Definition field_names (v : Runtime.js_value) : list string :=
  match v with Runtime.JObj fs => fs.*1 | _ => [] end.

(* ===================================================================== *)
(** ** Object literals as maps *)
(* ===================================================================== *)

Section ObjectLiteral.

Implicit Types (lit : list (string * string)) (k v : string).

Lemma eval_object_literal_snoc lit k v :
  Runtime.eval_object_literal (lit ++ [(k, v)])
  = <[k := v]> (Runtime.eval_object_literal lit).
Proof. unfold Runtime.eval_object_literal. by rewrite foldl_snoc. Qed.

(** Left-to-right definition of the properties is [list_to_map] on the
    reversed literal: the last occurrence of a key wins. *)
Lemma eval_object_literal_list_to_map lit :
  Runtime.eval_object_literal lit = list_to_map (reverse lit).
Proof.
  induction lit as [|[k v] lit IH] using rev_ind; [done|].
  rewrite eval_object_literal_snoc, reverse_snoc, IH. done.
Qed.

Lemma eval_object_literal_lookup lit k v :
  NoDup lit.*1 →
  Runtime.eval_object_literal lit !! k = Some v ↔ (k, v) ∈ lit.
Proof.
  intros Hnd. rewrite eval_object_literal_list_to_map.
  rewrite <- elem_of_list_to_map, elem_of_reverse; [done|].
  by rewrite fmap_reverse, reverse_Permutation.
Qed.

Lemma eval_object_literal_size lit :
  NoDup lit.*1 → size (Runtime.eval_object_literal lit) = length lit.
Proof.
  intros Hnd. rewrite eval_object_literal_list_to_map.
  rewrite map_size_list_to_map, length_reverse; [done|].
  by rewrite fmap_reverse, reverse_Permutation.
Qed.

(** A property of keys and values that holds of every pair written in the
    literal holds of every entry of the object. *)
Lemma eval_object_literal_Forall (P : string → string → Prop) lit :
  Forall (λ kv, P kv.1 kv.2) lit →
  map_Forall P (Runtime.eval_object_literal lit).
Proof.
  induction lit as [|[k v] lit IH] using rev_ind; intros HP.
  - apply map_Forall_empty.
  - rewrite eval_object_literal_snoc.
    apply Forall_app in HP as [Hl Hkv].
    apply map_Forall_insert_2; [by inversion Hkv | by apply IH].
Qed.

End ObjectLiteral.

Lemma ERRORS_keys_NoDup : NoDup (Decl.p_init Decl.ERRORS).*1.
Proof. apply (bool_decide_unpack _). by vm_compute. Qed.

Lemma ERRORS_literal_value_is_key :
  Forall (λ kv : string * string, kv.2 = kv.1) (Decl.p_init Decl.ERRORS).
Proof. repeat constructor. Qed.

(** The table has one entry per line of its initialiser, and one per member
    of the interface written for it. *)
Lemma ERRORS_entries_literal :
  Runtime.entries Runtime.ERRORS = length (Decl.p_init Decl.ERRORS).
Proof. apply eval_object_literal_size, ERRORS_keys_NoDup. Qed.

Lemma ERRORS_keys_interface :
  (Decl.p_init Decl.ERRORS).*1
  = Decl.sig_name <$> Decl.i_members Decl.AndroidFingerprintAuthErrors.
Proof. reflexivity. Qed.

(** The annotation on [ERRORS] names [IAndroidFingerprintAuthErrors], which
    the module does not declare; the interface it declares is
    [AndroidFingerprintAuthErrors]. *)
Remark ERRORS_annotation_unresolved :
  Decl.members_of Decl.interfaces (Decl.p_type Decl.ERRORS) = None
  ∧ Decl.members_of Decl.interfaces (Decl.TRef "AndroidFingerprintAuthErrors")
    = Some (Decl.i_members Decl.AndroidFingerprintAuthErrors).
Proof. split; reflexivity. Qed.

(* ===================================================================== *)
(** ** The error catalog *)
(* ===================================================================== *)

(** C1 (as stated: exactly 17 entries) fails: the table does not have 17
    entries. *)
Lemma ERRORS_entries_not_17 : Runtime.entries Runtime.ERRORS ≠ 17.
Proof. rewrite ERRORS_entries_literal. simpl. lia. Qed.

(** C1 (amended): the exported error catalog, the static [ERRORS] of
    [AndroidFingerprintAuth], contains exactly 18 entries. *)
Theorem ERRORS_entries_18 : Runtime.entries Runtime.ERRORS = 18.
Proof. rewrite ERRORS_entries_literal. reflexivity. Qed.

(** C2: for every key of the [ERRORS] table, the value stored under that key
    is the string spelling the key itself. *)
Theorem ERRORS_value_is_key (k : string) :
  is_Some (Runtime.ERRORS !! k) → Runtime.ERRORS !! k = Some k.
Proof.
  intros [v Hv]. rewrite Hv. f_equal.
  exact (eval_object_literal_Forall (λ k v, v = k) _
           ERRORS_literal_value_is_key k v Hv).
Qed.

Lemma ERRORS_value_is_key_witness :
  is_Some (Runtime.ERRORS !! "FINGERPRINT_CANCELLED")
  ∧ Runtime.ERRORS !! "FINGERPRINT_CANCELLED" = Some "FINGERPRINT_CANCELLED".
Proof.
  assert (H : is_Some (Runtime.ERRORS !! "FINGERPRINT_CANCELLED")).
  { vm_compute. eexists. reflexivity. }
  split; [exact H | exact (ERRORS_value_is_key "FINGERPRINT_CANCELLED" H)].
Defined.

(** The strings stored in the object are those written in its literal. *)
Lemma error_codes_literal (lit : list (string * string)) (s : string) :
  NoDup lit.*1 →
  s ∈ Runtime.error_codes (Runtime.eval_object_literal lit) ↔ s ∈ lit.*2.
Proof.
  intros Hnd. unfold Runtime.error_codes. rewrite !list_elem_of_fmap. split.
  - intros [[k v] [-> Hkv]]. exists (k, v). split; [done|].
    by apply eval_object_literal_lookup, elem_of_map_to_list.
  - intros [[k v] [-> Hkv]]. exists (k, v). split; [done|].
    by apply elem_of_map_to_list, eval_object_literal_lookup.
Qed.

Lemma ERRORS_literal_catalog :
  (Decl.p_init Decl.ERRORS).*2 = catalog_as_specified.
Proof. reflexivity. Qed.

(** C3: the error table is a public static member of the
    [AndroidFingerprintAuth] class, and a string is one of its error codes
    exactly when it is, character for character, one of the names of the
    specified catalog. *)
Theorem ERRORS_public_catalog :
  (∃ p, Decl.find_property "ERRORS" Decl.AndroidFingerprintAuth = Some p
        ∧ Decl.p_static p = true
        ∧ Decl.effective_access (Decl.p_access p) = Decl.Public
        ∧ Runtime.eval_object_literal (Decl.p_init p) = Runtime.ERRORS)
  ∧ (∀ s : string,
       s ∈ Runtime.error_codes Runtime.ERRORS ↔ s ∈ catalog_as_specified).
Proof.
  split.
  - exists Decl.ERRORS. repeat split; reflexivity.
  - intros s. rewrite <- ERRORS_literal_catalog.
    apply error_codes_literal, ERRORS_keys_NoDup.
Qed.

(** Identity is case-sensitive: a lower-case spelling is not a known code. *)
Example lower_case_is_unknown :
  Runtime.is_known_error Runtime.ERRORS "FINGERPRINT_CANCELLED" = true
  ∧ Runtime.is_known_error Runtime.ERRORS "fingerprint_cancelled" = false.
Proof. split; vm_compute; reflexivity. Qed.

(* ===================================================================== *)
(** ** Option and result types *)
(* ===================================================================== *)

(** C4: in [AndroidFingerprintAuthOptions], [clientId] is the only required
    field; [username], [password], [token], [disableBackup], [locale],
    [maxAttempts], [userAuthRequired], [dialogTitle], [dialogMessage] and
    [dialogHint] are optional, and there is no other field. *)
Theorem clientId_only_required :
  Decl.required_names (Decl.i_members Decl.AndroidFingerprintAuthOptions)
  = [ "clientId" ]
  ∧ Decl.optional_names (Decl.i_members Decl.AndroidFingerprintAuthOptions)
    = [ "username"; "password"; "token"; "disableBackup"; "locale";
        "maxAttempts"; "userAuthRequired"; "dialogTitle"; "dialogMessage";
        "dialogHint" ]
  ∧ length (Decl.i_members Decl.AndroidFingerprintAuthOptions) = 11.
Proof. repeat split; reflexivity. Qed.

(** C5: [delete] takes one parameter whose type has exactly the two fields
    [clientId] and [username], both required strings, and resolves with an
    object carrying a single field, a required boolean. *)
Theorem delete_signature :
  length (Decl.m_params Decl.delete) = 1
  ∧ Decl.param_members Decl.interfaces Decl.AndroidFingerprintAuth "delete" 0
    = Some [ Decl.PropSig "clientId" false Decl.TString;
             Decl.PropSig "username" false Decl.TString ]
  ∧ Decl.result_members Decl.interfaces Decl.AndroidFingerprintAuth "delete"
    = Some [ Decl.PropSig "deleted" false Decl.TBoolean ].
Proof. repeat split; reflexivity. Qed.

(** C6: the class exposes exactly the four operations [encrypt], [decrypt],
    [isAvailable] and [delete] (its methods are these four, all of them
    public static bridge methods), each takes at most one argument, named
    [options], and returns one promise, and the plugin is reached under the
    name [FingerprintAuth]. *)
Theorem four_operations :
  Decl.m_name <$> Decl.methods Decl.AndroidFingerprintAuth
  = [ "encrypt"; "decrypt"; "isAvailable"; "delete" ]
  ∧ Decl.operations Decl.AndroidFingerprintAuth
    = Decl.methods Decl.AndroidFingerprintAuth
  ∧ Forall (λ m, Decl.m_static m = true
                 ∧ Decl.effective_access (Decl.m_access m) = Decl.Public
                 ∧ (length (Decl.m_params m) ≤ 1)%nat
                 ∧ (Decl.m_params m).*1 ⊆ [ "options" ]
                 ∧ Decl.returns_promise m = true)
           (Decl.methods Decl.AndroidFingerprintAuth)
  ∧ Decl.pluginRef (Decl.c_plugin Decl.AndroidFingerprintAuth)
    = "FingerprintAuth".
Proof.
  split; [reflexivity|]. split; [by vm_compute|]. split; [|reflexivity].
  apply (bool_decide_unpack _). by vm_compute.
Qed.

(** C9: the parameter of [decrypt] has the type
    [AndroidFingerprintAuthOptions], in which [username] and [token] are both
    declared optional; its only required field is [clientId]. *)
Theorem decrypt_username_token_optional :
  Decl.param_members Decl.interfaces Decl.AndroidFingerprintAuth "decrypt" 0
  = Some (Decl.i_members Decl.AndroidFingerprintAuthOptions)
  ∧ Decl.sig_optional
      <$> Decl.find_sig "username"
            (Decl.i_members Decl.AndroidFingerprintAuthOptions)
    = Some true
  ∧ Decl.sig_optional
      <$> Decl.find_sig "token"
            (Decl.i_members Decl.AndroidFingerprintAuthOptions)
    = Some true
  ∧ Decl.required_names (Decl.i_members Decl.AndroidFingerprintAuthOptions)
    = [ "clientId" ].
Proof. repeat split; reflexivity. Qed.

(** C10: [encrypt] resolves with exactly [withFingerprint: boolean],
    [withBackup: boolean], [token: string]; [decrypt] with [withFingerprint],
    [withBackup], [password: string]; [isAvailable] with
    [isAvailable: boolean]; [delete] with [deleted: boolean].  None of
    [wasFingerprintUsed], [encodedToken], [decryptedPassword], [wasDeleted]
    is the name of a result field. *)
Theorem result_fields_as_declared :
  Decl.result_members Decl.interfaces Decl.AndroidFingerprintAuth "encrypt"
  = Some [ Decl.PropSig "withFingerprint" false Decl.TBoolean;
           Decl.PropSig "withBackup" false Decl.TBoolean;
           Decl.PropSig "token" false Decl.TString ]
  ∧ Decl.result_members Decl.interfaces Decl.AndroidFingerprintAuth "decrypt"
    = Some [ Decl.PropSig "withFingerprint" false Decl.TBoolean;
             Decl.PropSig "withBackup" false Decl.TBoolean;
             Decl.PropSig "password" false Decl.TString ]
  ∧ Decl.result_members Decl.interfaces Decl.AndroidFingerprintAuth
      "isAvailable"
    = Some [ Decl.PropSig "isAvailable" false Decl.TBoolean ]
  ∧ Decl.result_members Decl.interfaces Decl.AndroidFingerprintAuth "delete"
    = Some [ Decl.PropSig "deleted" false Decl.TBoolean ]
  ∧ Forall (λ n, n ∉ result_field_names Decl.interfaces
                       Decl.AndroidFingerprintAuth)
           [ "wasFingerprintUsed"; "encodedToken"; "decryptedPassword";
             "wasDeleted" ].
Proof.
  do 4 (split; [reflexivity|]).
  apply (bool_decide_unpack _). by vm_compute.
Qed.

(* ===================================================================== *)
(** ** The module store under calls *)
(* ===================================================================== *)

Section Frame.

Context {Native : Type}.
Variable exec : string → string → list Runtime.js_value → Native
                → Runtime.settlement * Native.

Implicit Types (st : Runtime.module_state Native).

Lemma native_call_frame service action args st :
  Runtime.st_ERRORS (Runtime.native_call exec service action args st).2
  = Runtime.st_ERRORS st.
Proof.
  unfold Runtime.native_call.
  by destruct (exec service action args (Runtime.st_native st)).
Qed.

(** A decorated method is one bridge call: same settlement, same native
    state, under the plugin reference and the method's name. *)
Lemma Cordova_forwards c m args st :
  Runtime.Cordova exec c m args st
  = let r := exec (Decl.pluginRef (Decl.c_plugin c)) (Decl.m_name m) args
                  (Runtime.st_native st) in
    (r.1, Runtime.ModuleState (Runtime.st_ERRORS st) r.2).
Proof.
  unfold Runtime.Cordova, Runtime.bind, Runtime.ret, Runtime.native_call.
  by destruct (exec _ _ _ _).
Qed.

Lemma Cordova_frame c m args st :
  Runtime.st_ERRORS (Runtime.Cordova exec c m args st).2
  = Runtime.st_ERRORS st.
Proof. by rewrite Cordova_forwards. Qed.

Lemma perform_frame (c : Runtime.call) st :
  Runtime.st_ERRORS (Runtime.perform exec c st).2 = Runtime.st_ERRORS st.
Proof. destruct c; apply Cordova_frame. Qed.

Lemma run_cons (c : Runtime.call) cs st :
  (Runtime.run exec (c :: cs) st).2
  = (Runtime.run exec cs (Runtime.perform exec c st).2).2.
Proof.
  simpl. unfold Runtime.bind, Runtime.ret.
  destruct (Runtime.perform exec c st) as [r st1]. simpl.
  by destruct (Runtime.run exec cs st1).
Qed.

Lemma run_frame (cs : list Runtime.call) st :
  Runtime.st_ERRORS (Runtime.run exec cs st).2 = Runtime.st_ERRORS st.
Proof.
  revert st. induction cs as [|c cs IH]; intros st; [done|].
  by rewrite run_cons, IH, perform_frame.
Qed.

(** Every call settles: one settlement per call made. *)
Lemma run_length (cs : list Runtime.call) st :
  length (Runtime.run exec cs st).1 = length cs.
Proof.
  revert st. induction cs as [|c cs IH]; intros st; [done|].
  simpl. unfold Runtime.bind, Runtime.ret.
  destruct (Runtime.perform exec c st) as [r st1].
  specialize (IH st1). destruct (Runtime.run exec cs st1). simpl in *.
  by rewrite IH.
Qed.

End Frame.

(** C8: the class declares [ERRORS] once; loading the module initialises it
    to the table, and after any sequence of [encrypt], [decrypt],
    [isAvailable] and [delete] calls, over any native bridge, the table read
    from the module is the table as initialised. *)
Theorem ERRORS_never_mutated
    (Native : Type)
    (exec : string → string → list Runtime.js_value → Native
            → Runtime.settlement * Native)
    (n : Native) (cs : list Runtime.call) :
  length (filter (λ p, Decl.p_name p = "ERRORS")
                 (Decl.properties Decl.AndroidFingerprintAuth)) = 1
  ∧ Runtime.st_ERRORS (Runtime.load n) = Runtime.ERRORS
  ∧ Runtime.st_ERRORS (Runtime.run exec cs (Runtime.load n)).2
    = Runtime.ERRORS.
Proof.
  split; [reflexivity|]. split; [reflexivity|].
  rewrite run_frame. reflexivity.
Qed.

(** *** A run against a double *)

Example run_against_double :
  (Runtime.run counting_double demo_calls (Runtime.load 0)).1
  = [ Runtime.Resolve (Runtime.JObj [("isAvailable", Runtime.JBool true)]);
      Runtime.Reject "FINGERPRINT_CANCELLED";
      Runtime.Reject "FINGERPRINT_CANCELLED" ]
  ∧ Runtime.st_native
      (Runtime.run counting_double demo_calls (Runtime.load 0)).2 = 3
  ∧ Runtime.st_ERRORS
      (Runtime.run counting_double demo_calls (Runtime.load 0)).2
    = Runtime.ERRORS.
Proof.
  split; [vm_compute; reflexivity|]. split; [vm_compute; reflexivity|].
  rewrite run_frame. reflexivity.
Qed.

Example options_to_js_demo :
  Runtime.options_to_js demo_options
  = Runtime.JObj [ ("clientId", Runtime.JStr "myAppName");
                   ("username", Runtime.JStr "myUsername");
                   ("password", Runtime.JStr "myPassword") ].
Proof. reflexivity. Qed.

(** The outcome of the encrypt/decrypt sequence is the bridge's: it returns
    the password against the identity cipher, and nothing against a bridge
    that reports cancellation. *)
Example encrypt_then_decrypt_echo :
  (Runtime.encrypt_then_decrypt echo_double "app" "u" "pw" (Runtime.load 0)).1
  = Some "pw".
Proof. vm_compute. reflexivity. Qed.

Example encrypt_then_decrypt_cancelled :
  (Runtime.encrypt_then_decrypt counting_double "app" "u" "pw"
     (Runtime.load 0)).1
  = None.
Proof. vm_compute. reflexivity. Qed.

(* ===================================================================== *)
(** ** The error table against its interface *)
(* ===================================================================== *)

Lemma ERRORS_lookup_literal (k v : string) :
  Runtime.ERRORS !! k = Some v ↔ (k, v) ∈ Decl.p_init Decl.ERRORS.
Proof. apply eval_object_literal_lookup, ERRORS_keys_NoDup. Qed.

Lemma ERRORS_lookup_Some (k v : string) :
  Runtime.ERRORS !! k = Some v → v = k.
Proof.
  exact (eval_object_literal_Forall (λ k v, v = k) _
           ERRORS_literal_value_is_key k v).
Qed.

(** X1: the table has exactly the members the interface
    [AndroidFingerprintAuthErrors] declares, no member missing and no key
    beyond them, and the interface declares each member as a required
    string. *)
Theorem ERRORS_implements_interface :
  (∀ k : string,
     is_Some (Runtime.ERRORS !! k)
     ↔ k ∈ Decl.sig_name <$> Decl.i_members Decl.AndroidFingerprintAuthErrors)
  ∧ Forall (λ p, Decl.sig_optional p = false ∧ Decl.sig_type p = Decl.TString)
           (Decl.i_members Decl.AndroidFingerprintAuthErrors).
Proof.
  split; [|repeat constructor].
  intros k. rewrite <- ERRORS_keys_interface, list_elem_of_fmap. split.
  - intros [v Hv]. exists (k, v). by rewrite <- ERRORS_lookup_literal.
  - intros [[k' v] [-> Hkv]]. exists v. by apply ERRORS_lookup_literal.
Qed.

(** X2: the table is injective: two keys holding the same error code are
    the same key, so a code names at most one entry. *)
Theorem ERRORS_injective (k1 k2 v : string) :
  Runtime.ERRORS !! k1 = Some v → Runtime.ERRORS !! k2 = Some v → k1 = k2.
Proof.
  intros H1%ERRORS_lookup_Some H2%ERRORS_lookup_Some. congruence.
Qed.

Lemma ERRORS_injective_witness :
  Runtime.ERRORS !! "MINIMUM_SDK" = Some "MINIMUM_SDK"
  ∧ "MINIMUM_SDK" = "MINIMUM_SDK".
Proof.
  assert (H : Runtime.ERRORS !! "MINIMUM_SDK" = Some "MINIMUM_SDK")
    by (vm_compute; reflexivity).
  split; [exact H|].
  exact (ERRORS_injective "MINIMUM_SDK" "MINIMUM_SDK" "MINIMUM_SDK" H H).
Defined.


(* ===================================================================== *)
(** ** Well-formedness of the declarations *)
(* ===================================================================== *)





(** X6: no object type of the module, interface or literal in a signature,
    declares a member name twice; the module has seven of them. *)
Theorem object_types_distinct_members :
  length (module_object_types Decl.interfaces Decl.AndroidFingerprintAuth) = 7
  ∧ Forall (λ ps, NoDup (Decl.sig_name <$> ps))
           (module_object_types Decl.interfaces Decl.AndroidFingerprintAuth).
Proof.
  split; [reflexivity|].
  apply (bool_decide_unpack _). vm_compute. exact I.
Qed.

(* ===================================================================== *)
(** ** Arguments against the parameter types *)
(* ===================================================================== *)

Lemma has_type_lit_cons n o ty ps fs :
  has_type (Decl.TLit (Decl.PropSig n o ty :: ps)) (Runtime.JObj fs)
  = match Runtime.get_field n (Runtime.JObj fs) with
    | None | Some Runtime.JUndefined => o
    | Some x => has_type ty x
    end && has_type (Decl.TLit ps) (Runtime.JObj fs).
Proof. reflexivity. Qed.

Lemma has_type_lit_nil fs :
  has_type (Decl.TLit []) (Runtime.JObj fs) = true.
Proof. reflexivity. Qed.

Lemma has_type_lit_obj ps v :
  has_type (Decl.TLit ps) v = true → ∃ fs, v = Runtime.JObj fs.
Proof. destruct v; try discriminate. eauto. Qed.

Lemma auth_options_type v :
  has_declared_type Decl.interfaces
    (Decl.TRef "AndroidFingerprintAuthOptions") v
  = has_type (Decl.TLit (Decl.i_members Decl.AndroidFingerprintAuthOptions)) v.
Proof. reflexivity. Qed.

Lemma delete_param_type t :
  param_type Decl.AndroidFingerprintAuth "delete" 0 = Some t →
  t = Decl.TLit [ Decl.PropSig "clientId" false Decl.TString;
                  Decl.PropSig "username" false Decl.TString ].
Proof. intros Ht. vm_compute in Ht. congruence. Qed.

(** A field that can be read is one of the object's fields. *)
Lemma get_field_outside fs (names : list string) n :
  fs.*1 ⊆ names → n ∉ names → Runtime.get_field n (Runtime.JObj fs) = None.
Proof.
  intros Hsub Hn. unfold Runtime.get_field.
  destruct (list_find _ fs) as [[i [k x]]|] eqn:Hf; [|done].
  apply list_find_Some in Hf as (Hi & Hk & _). simpl in Hk. subst k.
  exfalso. apply Hn, Hsub, list_elem_of_fmap. exists (n, x).
  split; [done|]. by eapply list_elem_of_lookup_2.
Qed.




(** An options object without [username] is accepted by [encrypt] and
    [decrypt] and not by [delete]. *)
Example options_without_username :
  let v := Runtime.JObj [ ("clientId", Runtime.JStr "app");
                          ("token", Runtime.JStr "dG9rZW4=") ] in
  has_declared_type Decl.interfaces
    (Decl.TRef "AndroidFingerprintAuthOptions") v = true
  ∧ (t ← param_type Decl.AndroidFingerprintAuth "delete" 0;
     Some (has_declared_type Decl.interfaces t v)) = Some false.
Proof. split; vm_compute; reflexivity. Qed.

Ltac absent_field Hsub n :=
  rewrite (get_field_outside _ _ n Hsub)
    by (apply (bool_decide_unpack _); vm_compute; exact I).

(** X9: an argument of [delete] that carries nothing but [clientId] and
    [username] is also a well-typed [AndroidFingerprintAuthOptions], so the
    identity used for [delete] can be passed on to [encrypt] and
    [decrypt]. *)
Theorem delete_options_are_auth_options
    (v : Runtime.js_value) (t : Decl.ts_type) :
  param_type Decl.AndroidFingerprintAuth "delete" 0 = Some t →
  has_declared_type Decl.interfaces t v = true →
  field_names v ⊆ [ "clientId"; "username" ] →
  has_declared_type Decl.interfaces
    (Decl.TRef "AndroidFingerprintAuthOptions") v = true.
Proof.
  intros ->%delete_param_type Hv Hsub.
  change (has_declared_type Decl.interfaces ?t ?v) with (has_type t v) in Hv.
  destruct (has_type_lit_obj _ _ Hv) as [fs ->]. simpl in Hsub.
  rewrite !has_type_lit_cons, has_type_lit_nil, andb_true_r in Hv.
  apply andb_true_iff in Hv as [Hc Hu].
  rewrite auth_options_type.
  unfold Decl.i_members, Decl.AndroidFingerprintAuthOptions, Decl.req,
    Decl.opt.
  rewrite !has_type_lit_cons, has_type_lit_nil, Hc.
  absent_field Hsub "password". absent_field Hsub "token".
  absent_field Hsub "disableBackup". absent_field Hsub "locale".
  absent_field Hsub "maxAttempts". absent_field Hsub "userAuthRequired".
  absent_field Hsub "dialogTitle". absent_field Hsub "dialogMessage".
  absent_field Hsub "dialogHint".
  destruct (Runtime.get_field "username" (Runtime.JObj fs)) as [[]|];
    simpl in *; done.
Qed.

Lemma delete_options_are_auth_options_witness :
  has_declared_type Decl.interfaces
    (Decl.TRef "AndroidFingerprintAuthOptions")
    (Runtime.delete_options_to_js (Runtime.DeleteOptions "app" "u")) = true.
Proof.
  apply (delete_options_are_auth_options _
           (Decl.TLit [ Decl.PropSig "clientId" false Decl.TString;
                        Decl.PropSig "username" false Decl.TString ])).
  - vm_compute. reflexivity.
  - vm_compute. reflexivity.
  - apply (bool_decide_unpack _). vm_compute. exact I.
Defined.

(** The restriction to the two fields matters: a further field of the wrong
    type is no obstacle for [delete], and is one for the options type. *)
Example delete_argument_with_bad_extra :
  let v := Runtime.JObj [ ("clientId", Runtime.JStr "app");
                          ("username", Runtime.JStr "u");
                          ("maxAttempts", Runtime.JStr "3") ] in
  (t ← param_type Decl.AndroidFingerprintAuth "delete" 0;
   Some (has_declared_type Decl.interfaces t v)) = Some true
  ∧ has_declared_type Decl.interfaces
      (Decl.TRef "AndroidFingerprintAuthOptions") v = false.
Proof. split; vm_compute; reflexivity. Qed.


